(** * Railway reservation MCP server: the availability query

    A shallow embedding of [src/mcp-server.py].  The only operation the program
    implements is [check_seat_availability]: it builds a nested dictionary of
    sample availability data, echoes its five arguments into it and stamps it
    with the wall-clock time.  Python values are embedded as a small universe
    [pyval]; the function lives in a state-and-exception monad whose state is
    the world the interpreter can observe (the wall clock). *)

From Stdlib Require Import ZArith QArith List String Ascii Lia.
From Stdlib Require Import DecimalString DecimalNat.
Import ListNotations.

Local Open Scope string_scope.
Local Open Scope Z_scope.

(** ** Python values *)

Module Py.

(** The JSON-shaped fragment of Python's object universe: everything that the
    tool can receive as an argument or place in its answer.  A dictionary is
    kept as the list of its items in insertion order, as CPython keeps it.
    Every float literal of the source is an integer-valued decimal, exactly
    representable, so a rational carries it without loss. *)
#[warnings="-register-all"]
Inductive pyval : Type :=
| PNone
| PBool (b : bool)
| PInt (z : Z)
| PFloat (q : Q)
| PStr (s : string)
| PList (items : list pyval)
| PDict (items : list (pyval * pyval)).

(** Exceptions the interpreter can raise in the modelled code. *)
Inductive pyexn : Type :=
| TypeError (msg : string).

Inductive pyresult (A : Type) : Type :=
| Returned (a : A)
| Raised (e : pyexn).

Arguments Returned {A} a.
Arguments Raised {A} e.

(** [hash(v)] succeeds on the immutable scalars and raises [TypeError] on
    lists and dictionaries. *)
Definition hashable (v : pyval) : bool :=
  match v with
  | PList _ | PDict _ => false
  | _ => true
  end.

(** The type name Python prints in "unhashable type: '...'". *)
Definition type_name (v : pyval) : string :=
  match v with
  | PNone => "NoneType"
  | PBool _ => "bool"
  | PInt _ => "int"
  | PFloat _ => "float"
  | PStr _ => "str"
  | PList _ => "list"
  | PDict _ => "dict"
  end.

(** The dictionary display [{k: v}] with one computed key: the key is hashed
    when the dictionary is built. *)
Definition build_map_1 (k v : pyval) : pyresult pyval :=
  if hashable k then Returned (PDict [(k, v)])
  else Raised (TypeError ("unhashable type: '" ++ type_name k ++ "'")).

(** An item whose key is a string literal. *)
Definition item (k : string) (v : pyval) : pyval * pyval := (PStr k, v).

(** [d[k]] for a string key [k], as an option: [None] where Python raises
    [KeyError] (or [TypeError], when [d] is not a dictionary). *)
Fixpoint assoc_str (k : string) (items : list (pyval * pyval)) : option pyval :=
  match items with
  | [] => None
  | (PStr k', v) :: rest => if String.eqb k k' then Some v else assoc_str k rest
  | _ :: rest => assoc_str k rest
  end.

Definition get_item (d : pyval) (k : string) : option pyval :=
  match d with
  | PDict items => assoc_str k items
  | _ => None
  end.

(** [d[k1][k2]...[kn]]. *)
Fixpoint get_path (d : pyval) (path : list string) : option pyval :=
  match path with
  | [] => Some d
  | k :: path' =>
      match get_item d k with
      | Some d' => get_path d' path'
      | None => None
      end
  end.

(** [list(d.keys())] and [list(d.values())]. *)
Definition dict_keys (d : pyval) : option (list pyval) :=
  match d with
  | PDict items => Some (map fst items)
  | _ => None
  end.

Definition dict_values (d : pyval) : option (list pyval) :=
  match d with
  | PDict items => Some (map snd items)
  | _ => None
  end.

End Py.
Import Py.

Notation "k :-> v" := (item k v) (at level 60, no associativity).

(** ** The wall clock *)

Module Clock.

(** A naive [datetime]: the fields of the object [datetime.now()] returns. *)
Record datetime : Type := mk_datetime {
  year : nat;
  month : nat;
  day : nat;
  hour : nat;
  minute : nat;
  second : nat;
  microsecond : nat
}.

Definition string_of_nat (n : nat) : string :=
  NilZero.string_of_uint (Nat.to_uint n).

Fixpoint zeros (n : nat) : string :=
  match n with
  | O => EmptyString
  | S n' => String "0"%char (zeros n')
  end.

(** Decimal rendering, left-padded with zeros to [width] digits. *)
Definition zfill (width : nat) (n : nat) : string :=
  let s := string_of_nat n in
  zeros (width - String.length s) ++ s.

(** [dt.strftime("%Y-%m-%d %H:%M:%S")]: zero-padded fields, the microsecond
    dropped.  (For a year below 1000 the C library decides whether [%Y] is
    padded; a wall clock never reads such a year.) *)
Definition strftime_Ymd_HMS (dt : datetime) : string :=
  zfill 4 (year dt) ++ "-" ++ zfill 2 (month dt) ++ "-" ++ zfill 2 (day dt)
  ++ " " ++ zfill 2 (hour dt) ++ ":" ++ zfill 2 (minute dt) ++ ":"
  ++ zfill 2 (second dt).

End Clock.
Import Clock.

(** ** The interpreter monad *)

(** What a call can observe and could change: the wall clock that
    [datetime.now()] reads.  The module has no other mutable state: its
    globals ([MCP_AVAILABLE], [server]) are bound once at import. *)
Record World : Type := mk_World {
  wall_clock : datetime
}.

(** State passing with exceptions: a computation maps the world to an outcome
    and the world it leaves behind. *)
Definition PyM (A : Type) : Type := World -> pyresult A * World.

Definition ret {A : Type} (a : A) : PyM A := fun w => (Returned a, w).

Definition bind {A B : Type} (m : PyM A) (k : A -> PyM B) : PyM B :=
  fun w =>
    match m w with
    | (Returned a, w') => k a w'
    | (Raised e, w') => (Raised e, w')
    end.

Definition lift {A : Type} (r : pyresult A) : PyM A := fun w => (r, w).

Notation "x <- m ;; k" := (bind m (fun x => k))
  (at level 61, m at next level, right associativity).

(** [datetime.now()] reads the clock and leaves it alone. *)
Definition datetime_now : PyM datetime := fun w => (Returned (wall_clock w), w).

(** ** [check_seat_availability] *)

(** The body is one dictionary display, evaluated top to bottom: the
    [train_details] dictionary, then the [class_availability] dictionary whose
    single key is the [travel_class] argument (hashed at that point), then
    [additional_info] with the clock reading, then the two alternate options.
    The annotations say [str]; Python does not enforce them, so the arguments
    are arbitrary values here. *)
Definition check_seat_availability
    (train_name travel_date start_station end_station travel_class : pyval)
    : PyM pyval :=
  let train_details :=
    PDict [
      "train_name" :-> train_name;
      "train_number" :-> PStr "12001";
      "travel_date" :-> travel_date;
      "route" :-> PDict [
        "start_station" :-> start_station;
        "end_station" :-> end_station;
        "departure_time" :-> PStr "08:30";
        "arrival_time" :-> PStr "14:45";
        "duration" :-> PStr "6h 15m"
      ]
    ] in
  class_availability <- lift (build_map_1 travel_class (PDict [
      "total_seats" :-> PInt 72;
      "available_seats" :-> PInt 18;
      "waiting_list" :-> PInt 5;
      "berth_availability" :-> PDict [
        "upper" :-> PDict [
          "total" :-> PInt 24;
          "available" :-> PInt 6;
          "price" :-> PFloat 1250
        ];
        "middle" :-> PDict [
          "total" :-> PInt 24;
          "available" :-> PInt 4;
          "price" :-> PFloat 1275
        ];
        "lower" :-> PDict [
          "total" :-> PInt 24;
          "available" :-> PInt 8;
          "price" :-> PFloat 1300
        ]
      ];
      "status" :-> PStr (if 18 >? 0 then "Available" else "Waiting List");
      "base_fare" :-> PFloat 1200;
      "booking_status" :-> PStr "OPEN"
    ])) ;;
  now <- datetime_now ;;
  ret (PDict [
    "train_details" :-> train_details;
    "class_availability" :-> class_availability;
    "additional_info" :-> PDict [
      "tatkal_available" :-> PBool true;
      "premium_tatkal_available" :-> PBool false;
      "cancellation_charges" :-> PDict [
        "upto_4_hours" :-> PStr "25% of fare";
        "4_to_12_hours" :-> PStr "50% of fare";
        "after_12_hours" :-> PStr "No refund"
      ];
      "booking_counter" :-> PStr "IRCTC Online";
      "last_updated" :-> PStr (strftime_Ymd_HMS now)
    ];
    "alternate_options" :-> PList [
      PDict [
        "train_name" :-> PStr "Shatabdi Express";
        "train_number" :-> PStr "12002";
        "departure_time" :-> PStr "10:15";
        "available_seats" :-> PInt 32;
        "class" :-> travel_class
      ];
      PDict [
        "train_name" :-> PStr "Mail Express";
        "train_number" :-> PStr "12003";
        "departure_time" :-> PStr "16:30";
        "available_seats" :-> PInt 45;
        "class" :-> travel_class
      ]
    ]
  ]).

(** A call with the five string arguments the tool schema prescribes. *)
Record Query : Type := mk_Query {
  q_train_name : string;
  q_travel_date : string;
  q_start_station : string;
  q_end_station : string;
  q_travel_class : string
}.

Definition query (q : Query) : PyM pyval :=
  check_seat_availability
    (PStr (q_train_name q)) (PStr (q_travel_date q))
    (PStr (q_start_station q)) (PStr (q_end_station q))
    (PStr (q_travel_class q)).

(** The inputs of the standalone demo in [main]. *)
Definition demo_query : Query :=
  mk_Query "Rajdhani Express" "2025-07-15" "New Delhi (NDLS)"
           "Mumbai Central (BCT)" "AC2".

Definition demo_clock : datetime := mk_datetime 2025 7 15 8 30 0 0.
Definition demo_world : World := mk_World demo_clock.

Definition later_clock : datetime := mk_datetime 2025 7 15 8 30 1 0.
Definition later_world : World := mk_World later_clock.

(** ** Editing a nested dictionary *)

Module Edit.

(** Apply [f] to the value stored under the string key [k]. *)
Definition map_item (k : string) (f : pyval -> pyval)
    (items : list (pyval * pyval)) : list (pyval * pyval) :=
  map (fun kv =>
         match fst kv with
         | PStr k' => if String.eqb k k' then (fst kv, f (snd kv)) else kv
         | _ => kv
         end) items.

(** Apply [f] to the value at [d[k1]...[kn]]; a path that leaves the
    dictionaries changes nothing. *)
Fixpoint update_at (path : list string) (f : pyval -> pyval) (d : pyval)
    : pyval :=
  match path with
  | [] => f d
  | k :: path' =>
      match d with
      | PDict items => PDict (map_item k (update_at path' f) items)
      | _ => d
      end
  end.

Definition blank_at (path : list string) : pyval -> pyval :=
  update_at path (fun _ => PNone).

(** Forget the keys of a dictionary, keeping its values in order. *)
Definition blank_keys (d : pyval) : pyval :=
  match d with
  | PDict items => PDict (map (fun kv => (PNone, snd kv)) items)
  | _ => d
  end.

Definition map_list (f : pyval -> pyval) (v : pyval) : pyval :=
  match v with
  | PList items => PList (map f items)
  | _ => v
  end.

End Edit.
Import Edit.

(** ** Observations on a snapshot *)

(** [snap["additional_info"]["last_updated"] = s]. *)
Definition set_last_updated (s : string) : pyval -> pyval :=
  update_at ["additional_info"; "last_updated"] (fun _ => PStr s).

(** The [last_updated] stamp of an outcome, when there is one. *)
Definition stamp_of (r : pyresult pyval) : option pyval :=
  match r with
  | Returned snap => get_path snap ["additional_info"; "last_updated"]
  | Raised _ => None
  end.

(** The snapshot with the echoed arguments named by the specification (train
    name, travel date, the two stations, the class key) and the
    [last_updated] stamp blanked out. *)
Definition erase_echo_and_stamp (snap : pyval) : pyval :=
  blank_at ["train_details"; "train_name"]
    (blank_at ["train_details"; "travel_date"]
       (blank_at ["train_details"; "route"; "start_station"]
          (blank_at ["train_details"; "route"; "end_station"]
             (update_at ["class_availability"] blank_keys
                (blank_at ["additional_info"; "last_updated"] snap))))).

(** Additionally blank the ["class"] field of every alternate option. *)
Definition erase_alternate_class : pyval -> pyval :=
  update_at ["alternate_options"] (map_list (blank_at ["class"])).

(** The values stored in [snap["class_availability"]], one per class. *)
Definition class_entries (snap : pyval) : option (list pyval) :=
  match get_item snap "class_availability" with
  | Some d => dict_values d
  | None => None
  end.

Definition class_keys (snap : pyval) : option (list pyval) :=
  match get_item snap "class_availability" with
  | Some d => dict_keys d
  | None => None
  end.

(** [entry[path] == v] for every listed pair. *)
Definition holds_all (entry : pyval) (facts : list (list string * pyval))
    : Prop :=
  Forall (fun pv => get_path entry (fst pv) = Some (snd pv)) facts.

(** Seat counts and prices of the sample inventory. *)
Definition sample_class_figures : list (list string * pyval) :=
  [ (["total_seats"], PInt 72);
    (["available_seats"], PInt 18);
    (["waiting_list"], PInt 5);
    (["berth_availability"; "upper"; "total"], PInt 24);
    (["berth_availability"; "upper"; "available"], PInt 6);
    (["berth_availability"; "upper"; "price"], PFloat 1250);
    (["berth_availability"; "middle"; "total"], PInt 24);
    (["berth_availability"; "middle"; "available"], PInt 4);
    (["berth_availability"; "middle"; "price"], PFloat 1275);
    (["berth_availability"; "lower"; "total"], PInt 24);
    (["berth_availability"; "lower"; "available"], PInt 8);
    (["berth_availability"; "lower"; "price"], PFloat 1300);
    (["base_fare"], PFloat 1200) ].

(** Train number, timings, quota flags and cancellation charges. *)
Definition sample_fixed_fields : list (list string * pyval) :=
  [ (["train_details"; "train_number"], PStr "12001");
    (["train_details"; "route"; "departure_time"], PStr "08:30");
    (["train_details"; "route"; "arrival_time"], PStr "14:45");
    (["additional_info"; "tatkal_available"], PBool true);
    (["additional_info"; "premium_tatkal_available"], PBool false);
    (["additional_info"; "cancellation_charges"; "upto_4_hours"],
       PStr "25% of fare");
    (["additional_info"; "cancellation_charges"; "4_to_12_hours"],
       PStr "50% of fare");
    (["additional_info"; "cancellation_charges"; "after_12_hours"],
       PStr "No refund") ].

(** The status flag of a class entry agrees with its seat count. *)
Definition status_matches_count (entry : pyval) : Prop :=
  exists (status : string) (available : Z),
    get_item entry "status" = Some (PStr status)
    /\ get_item entry "available_seats" = Some (PInt available)
    /\ (status = "Available" <-> 0 < available)
    /\ (status = "Waiting List" <-> available <= 0).

(** [0 <= available <= total] for a pair of counters stored under the keys
    [avail_key] and [total_key], and so for the booked count between them. *)
Definition counters_in_range (d : pyval) (avail_key total_key : string)
    : Prop :=
  exists available total : Z,
    get_item d avail_key = Some (PInt available)
    /\ get_item d total_key = Some (PInt total)
    /\ 0 <= available <= total
    /\ 0 <= total - available <= total.

(** A class entry and each of its berth types keep their counters in
    range; the berth types are exactly upper, middle and lower. *)
Definition inventory_in_range (entry : pyval) : Prop :=
  counters_in_range entry "available_seats" "total_seats"
  /\ exists berths : list (pyval * pyval),
       get_item entry "berth_availability" = Some (PDict berths)
       /\ map fst berths = [PStr "upper"; PStr "middle"; PStr "lower"]
       /\ Forall (fun kv => counters_in_range (snd kv) "available" "total")
                 berths.

(** An alternate option offers the queried class with seats left. *)
Definition alternate_offers (travel_class : string) (option_ : pyval) : Prop :=
  get_item option_ "class" = Some (PStr travel_class)
  /\ exists seats : Z,
       get_item option_ "available_seats" = Some (PInt seats) /\ 0 < seats.

(** ** Cancellation charges *)

Module Refund.

(** The three bands of the schedule, by hours left before departure. *)
Inductive tier : Type :=
| Under4h
| From4hTo12h
| AtLeast12h.

Definition tier_of_hours (hours_to_departure : Z) : tier :=
  if 12 <=? hours_to_departure then AtLeast12h
  else if 4 <=? hours_to_departure then From4hTo12h
  else Under4h.

(** The schedule in the specification's words, as the share of the fare that
    is retained: full refund at 12 hours or more, 50% retained between 4 and
    12 hours, 75% retained under 4 hours.  The program has no cancellation
    operation; this definition is the reference the reported table is
    compared with. *)
Definition spec_retained_percent (t : tier) : Z :=
  match t with
  | AtLeast12h => 0
  | From4hTo12h => 50
  | Under4h => 75
  end.

(** The key under which the response reports each band. *)
Definition tier_key (t : tier) : string :=
  match t with
  | Under4h => "upto_4_hours"
  | From4hTo12h => "4_to_12_hours"
  | AtLeast12h => "after_12_hours"
  end.

(** Reading a reported charge: ["N% of fare"] retains N percent, ["No refund"]
    retains all of it. *)
Definition stated_percent (s : string) : option Z :=
  if String.eqb s "No refund" then Some 100
  else
    match index 0 "%" s with
    | Some n =>
        if String.eqb (substring n (String.length s - n) s) "% of fare" then
          match NilZero.uint_of_string (substring 0 n s) with
          | Some u => Some (Z.of_nat (Nat.of_uint u))
          | None => None
          end
        else None
    | None => None
    end.

(** The charge a snapshot reports for a band. *)
Definition reported_retained_percent (snap : pyval) (t : tier) : option Z :=
  match get_path snap ["additional_info"; "cancellation_charges"; tier_key t]
  with
  | Some (PStr s) => stated_percent s
  | _ => None
  end.

(** Every charge the snapshot reports, whatever its key. *)
Definition reported_percents (snap : pyval) : list (option Z) :=
  match get_path snap ["additional_info"; "cancellation_charges"] with
  | Some (PDict items) =>
      map (fun kv => match snd kv with
                     | PStr s => stated_percent s
                     | _ => None
                     end) items
  | _ => []
  end.

(** The snapshot states the specification's schedule. *)
Definition states_spec_schedule (snap : pyval) : Prop :=
  forall t, reported_retained_percent snap t = Some (spec_retained_percent t).

End Refund.
Import Refund.

(** ** [json.dumps(obj, indent=2, ensure_ascii=False)] *)

Module Json.

(** A [str] is kept as the bytes of its UTF-8 encoding; with
    [ensure_ascii=False] the encoder passes every byte from 0x20 up through
    unchanged, except the quote and the backslash. *)
Definition dquote : ascii := ascii_of_nat 34.
Definition backslash : ascii := ascii_of_nat 92.
Definition newline : ascii := ascii_of_nat 10.

(** One digit of ['{0:04x}'.format(i)]. *)
Definition hex_digit (n : nat) : ascii :=
  if (n <? 10)%nat then ascii_of_nat (48 + n) else ascii_of_nat (87 + n).

(** [ESCAPE_DCT]: the two-character escapes, and [\u00XX] for the other
    control characters. *)
Definition escape_char (c : ascii) : string :=
  let n := nat_of_ascii c in
  if (n =? 92)%nat then String backslash (String backslash EmptyString)
  else if (n =? 34)%nat then String backslash (String dquote EmptyString)
  else if (n =? 8)%nat then String backslash "b"
  else if (n =? 12)%nat then String backslash "f"
  else if (n =? 10)%nat then String backslash "n"
  else if (n =? 13)%nat then String backslash "r"
  else if (n =? 9)%nat then String backslash "t"
  else if (n <? 32)%nat then
    String backslash
      ("u00" ++ String (hex_digit (n / 16))
                  (String (hex_digit (n mod 16)) EmptyString))
  else String c EmptyString.

(** [ESCAPE.sub(replace, s)]. *)
Fixpoint escape (s : string) : string :=
  match s with
  | EmptyString => EmptyString
  | String c s' => escape_char c ++ escape s'
  end.

Definition encode_basestring (s : string) : string :=
  String dquote (escape s ++ String dquote EmptyString).

(** [int.__repr__]. *)
Definition intstr (z : Z) : string := NilZero.string_of_int (Z.to_int z).

Fixpoint spaces (n : nat) : string :=
  match n with
  | O => EmptyString
  | S n' => String " "%char (spaces n')
  end.

(** ['\n' + _indent * _current_indent_level] with [_indent = ' ' * 2]. *)
Definition newline_indent (level : nat) : string :=
  String newline (spaces (2 * level)).

Section Encoder.

(** [float.__repr__], the shortest decimal that reads back as the same
    binary64 number, is the interpreter's; the encoder takes it as given. *)
Variable floatstr : Q -> string.

(** The text of a dictionary key: strings as they are, the other scalars
    converted in the order the encoder tests them. *)
Definition key_text (key : pyval) : pyresult string :=
  match key with
  | PStr s => Returned s
  | PFloat q => Returned (floatstr q)
  | PBool true => Returned "true"
  | PBool false => Returned "false"
  | PNone => Returned "null"
  | PInt z => Returned (intstr z)
  | PList _ | PDict _ =>
      Raised (TypeError ("keys must be str, int, float, bool or None, not "
                         ++ type_name key))
  end.

(** [_iterencode] with the chunks joined: containers open a new indentation
    level, put each item on a line of its own, and close on a line at the
    outer level; empty containers stay on one line. *)
Fixpoint iterencode (level : nat) (o : pyval) {struct o} : pyresult string :=
  match o with
  | PNone => Returned "null"
  | PBool true => Returned "true"
  | PBool false => Returned "false"
  | PInt z => Returned (intstr z)
  | PFloat q => Returned (floatstr q)
  | PStr s => Returned (encode_basestring s)
  | PList lst =>
      match lst with
      | [] => Returned "[]"
      | _ :: _ =>
          match
            (fix encode_values (l : list pyval) : pyresult (list string) :=
               match l with
               | [] => Returned []
               | value :: l' =>
                   match iterencode (S level) value with
                   | Raised e => Raised e
                   | Returned chunk =>
                       match encode_values l' with
                       | Raised e => Raised e
                       | Returned chunks => Returned (chunk :: chunks)
                       end
                   end
               end) lst
          with
          | Raised e => Raised e
          | Returned chunks =>
              Returned ("[" ++ newline_indent (S level)
                        ++ String.concat ("," ++ newline_indent (S level))
                                         chunks
                        ++ newline_indent level ++ "]")
          end
      end
  | PDict dct =>
      match dct with
      | [] => Returned "{}"
      | _ :: _ =>
          match
            (fix encode_items (l : list (pyval * pyval))
               : pyresult (list string) :=
               match l with
               | [] => Returned []
               | (key, value) :: l' =>
                   match key_text key with
                   | Raised e => Raised e
                   | Returned k =>
                       match iterencode (S level) value with
                       | Raised e => Raised e
                       | Returned chunk =>
                           match encode_items l' with
                           | Raised e => Raised e
                           | Returned chunks =>
                               Returned ((encode_basestring k ++ ": " ++ chunk)
                                         :: chunks)
                           end
                       end
                   end
               end) dct
          with
          | Raised e => Raised e
          | Returned chunks =>
              Returned ("{" ++ newline_indent (S level)
                        ++ String.concat ("," ++ newline_indent (S level))
                                         chunks
                        ++ newline_indent level ++ "}")
          end
      end
  end.

(** [json.dumps(obj, indent=2, ensure_ascii=False)]. *)
Definition json_dumps (obj : pyval) : pyresult string := iterencode 0 obj.

End Encoder.

(** [repr] of a float whose value is an integer below 10^16: the integer
    followed by [.0]. *)
Definition integral_repr (z : Z) : string := intstr z ++ ".0".

(** A renderer that is right on the integer-valued floats, the only ones the
    program writes itself. *)
Definition repr_integral_floats (floatstr : Q -> string) : Prop :=
  forall z : Z, Z.abs z < 10 ^ 16 -> floatstr (inject_Z z) = integral_repr z.

(** Such a renderer, for evaluating the encoder on the program's data. *)
Definition sample_floatstr (q : Q) : string := integral_repr (Qnum q).

(** The body of a JSON string literal, by the grammar of RFC 8259: no bare
    quote, no control character, and every backslash followed by one of
    the escape letters or by [u] and four hexadecimal digits. *)
Inductive scan_state : Type :=
| Plain
| AfterBackslash
| HexDigits (remaining : nat).

Definition is_hex (c : ascii) : bool :=
  let n := nat_of_ascii c in
  ((48 <=? n) && (n <=? 57) || (65 <=? n) && (n <=? 70)
   || (97 <=? n) && (n <=? 102))%nat%bool.

Definition scan_step (st : scan_state) (c : ascii) : option scan_state :=
  let n := nat_of_ascii c in
  match st with
  | Plain =>
      if (n =? 34)%nat then None
      else if (n =? 92)%nat then Some AfterBackslash
      else if (n <? 32)%nat then None
      else Some Plain
  | AfterBackslash =>
      if ((n =? 34) || (n =? 92) || (n =? 47) || (n =? 98) || (n =? 102)
          || (n =? 110) || (n =? 114) || (n =? 116))%nat%bool
      then Some Plain
      else if (n =? 117)%nat then Some (HexDigits 4)
      else None
  | HexDigits remaining =>
      if is_hex c then
        match remaining with
        | 0%nat | 1%nat => Some Plain
        | S k => Some (HexDigits k)
        end
      else None
  end.

Fixpoint scan (st : scan_state) (s : string) : option scan_state :=
  match s with
  | EmptyString => Some st
  | String c s' =>
      match scan_step st c with
      | Some st' => scan st' s'
      | None => None
      end
  end.

Definition json_string_body (s : string) : Prop := scan Plain s = Some Plain.

(** How often a character occurs in a text. *)
Fixpoint count_char (c : ascii) (s : string) : nat :=
  match s with
  | EmptyString => 0%nat
  | String c' s' =>
      ((if Ascii.eqb c c' then 1 else 0) + count_char c s')%nat
  end.

(** A text the encoder has nothing to escape in: no control character, no
    quote, no backslash. *)
Definition needs_escape (c : ascii) : bool :=
  let n := nat_of_ascii c in
  ((n <? 32) || (n =? 34) || (n =? 92))%nat%bool.

Fixpoint plain_text (s : string) : bool :=
  match s with
  | EmptyString => true
  | String c s' => negb (needs_escape c) && plain_text s'
  end.

End Json.
Import Json.

(** ** The MCP tool handlers *)

Module Server.

(** The fields of [mcp.types.Tool] and [mcp.types.TextContent] the program
    fills in. *)
Record Tool : Type := mk_Tool {
  name : string;
  description : string;
  inputSchema : pyval
}.

Record TextContent : Type := mk_TextContent {
  type : string;
  text : string
}.

(** [handle_list_tools]: the one tool of the server with its JSON schema. *)
Definition handle_list_tools : list Tool :=
  [ mk_Tool
      "check_seat_availability"
      "Check seat availability for railway reservations. Returns availability for different berth types (upper, middle, lower) along with pricing and booking status."
      (PDict [
         "type" :-> PStr "object";
         "properties" :-> PDict [
           "train_name" :-> PDict [
             "type" :-> PStr "string";
             "description" :->
               PStr "Name of the train (e.g., 'Rajdhani Express', 'Shatabdi Express')"
           ];
           "travel_date" :-> PDict [
             "type" :-> PStr "string";
             "description" :-> PStr "Date of travel in YYYY-MM-DD format"
           ];
           "start_station" :-> PDict [
             "type" :-> PStr "string";
             "description" :->
               PStr "Starting station name or code (e.g., 'New Delhi', 'NDLS')"
           ];
           "end_station" :-> PDict [
             "type" :-> PStr "string";
             "description" :->
               PStr "Destination station name or code (e.g., 'Mumbai Central', 'BCT')"
           ];
           "travel_class" :-> PDict [
             "type" :-> PStr "string";
             "description" :->
               PStr "Class of travel (AC1, AC2, AC3, Sleeper, CC, EC, etc.)";
             "enum" :-> PList [PStr "AC1"; PStr "AC2"; PStr "AC3";
                               PStr "Sleeper"; PStr "CC"; PStr "EC";
                               PStr "2S"]
           ]
         ];
         "required" :-> PList [PStr "train_name"; PStr "travel_date";
                               PStr "start_station"; PStr "end_station";
                               PStr "travel_class"]
       ]) ].

(** What can escape [handle_call_tool]: its own [ValueError], the [KeyError]
    of a subscript on [arguments], and whatever the call or the encoder
    raise. *)
Inductive tool_exn : Type :=
| ValueError (msg : string)
| KeyError (key : string)
| Uncaught (e : pyexn).

Inductive outcome (A : Type) : Type :=
| Done (a : A)
| Failed (e : tool_exn).

Arguments Done {A} a.
Arguments Failed {A} e.

Definition ToolM (A : Type) : Type := World -> outcome A * World.

Definition tool_ret {A : Type} (a : A) : ToolM A := fun w => (Done a, w).

Definition tool_bind {A B : Type} (m : ToolM A) (k : A -> ToolM B)
    : ToolM B :=
  fun w =>
    match m w with
    | (Done a, w') => k a w'
    | (Failed e, w') => (Failed e, w')
    end.

Definition tool_raise {A : Type} (e : tool_exn) : ToolM A :=
  fun w => (Failed e, w).

(** [arguments[key]] on the dictionary the client sent. *)
Definition subscript (arguments : list (pyval * pyval)) (key : string)
    : ToolM pyval :=
  match assoc_str key arguments with
  | Some v => tool_ret v
  | None => tool_raise (KeyError key)
  end.

(** [await] on a coroutine of the program: its exception, if any, goes on
    up. *)
Definition await {A : Type} (m : PyM A) : ToolM A :=
  fun w =>
    match m w with
    | (Returned a, w') => (Done a, w')
    | (Raised e, w') => (Failed (Uncaught e), w')
    end.

Definition of_result {A : Type} (r : pyresult A) : ToolM A :=
  await (lift r).

Notation "x <~ m ;; k" := (tool_bind m (fun x => k))
  (at level 61, m at next level, right associativity).

Section Handlers.

Variable floatstr : Q -> string.

(** [handle_call_tool]: the keyword arguments are evaluated left to right,
    then the call, then the encoder. *)
Definition handle_call_tool (name : string) (arguments : list (pyval * pyval))
    : ToolM (list TextContent) :=
  if String.eqb name "check_seat_availability" then
    train_name <~ subscript arguments "train_name" ;;
    travel_date <~ subscript arguments "travel_date" ;;
    start_station <~ subscript arguments "start_station" ;;
    end_station <~ subscript arguments "end_station" ;;
    travel_class <~ subscript arguments "travel_class" ;;
    result <~ await (check_seat_availability train_name travel_date
                       start_station end_station travel_class) ;;
    dumped <~ of_result (json_dumps floatstr result) ;;
    tool_ret [mk_TextContent "text" dumped]
  else tool_raise (ValueError ("Unknown tool: " ++ name)).



End Handlers.

(** The arguments dictionary a client sends for a query. *)
Definition arguments_of (q : Query) : list (pyval * pyval) :=
  [ "train_name" :-> PStr (q_train_name q);
    "travel_date" :-> PStr (q_travel_date q);
    "start_station" :-> PStr (q_start_station q);
    "end_station" :-> PStr (q_end_station q);
    "travel_class" :-> PStr (q_travel_class q) ].

(** The keys [handle_call_tool] subscripts, in the order it does. *)
Definition looked_up : list string :=
  ["train_name"; "travel_date"; "start_station"; "end_station";
   "travel_class"].

(** The tool the server advertises. *)
Definition advertised_tool : Tool :=
  hd (mk_Tool EmptyString EmptyString PNone) handle_list_tools.

End Server.
Import Server.

(** ** Requests against the advertised schema *)

Module Schema.

(** The strings of a JSON array of strings. *)
Definition strings_of (v : pyval) : list string :=
  match v with
  | PList items =>
      flat_map (fun x => match x with PStr s => [s] | _ => [] end) items
  | _ => []
  end.

(** [schema["required"]]. *)
Definition required_keys (schema : pyval) : list string :=
  match get_item schema "required" with
  | Some r => strings_of r
  | None => []
  end.

(** The first of [keys] that [arguments] has no entry for. *)
Fixpoint first_missing (keys : list string) (arguments : list (pyval * pyval))
    : option string :=
  match keys with
  | [] => None
  | k :: keys' =>
      match assoc_str k arguments with
      | Some _ => first_missing keys' arguments
      | None => Some k
      end
  end.

(** A value against a property schema, for the keywords the tool uses:
    ["type": "string"] and ["enum"] over strings. *)
Definition property_ok (prop : pyval) (v : pyval) : bool :=
  match get_item prop "type" with
  | None => true
  | Some (PStr ty) =>
      if String.eqb ty "string" then
        match v with PStr _ => true | _ => false end
      else false
  | Some _ => false
  end
  &&
  match get_item prop "enum" with
  | None => true
  | Some allowed =>
      match v with
      | PStr s => existsb (String.eqb s) (strings_of allowed)
      | _ => false
      end
  end.

(** An arguments object conforms when every required key is present and
    every entry that the schema declares has a conforming value; entries
    the schema does not declare are allowed. *)
Definition conforms (schema : pyval) (arguments : list (pyval * pyval))
    : bool :=
  match first_missing (required_keys schema) arguments with
  | Some _ => false
  | None => true
  end
  &&
  forallb (fun kv =>
             match fst kv with
             | PStr k =>
                 match get_path schema ["properties"; k] with
                 | Some prop => property_ok prop (snd kv)
                 | None => true
                 end
             | _ => false
             end) arguments.

End Schema.
Import Schema.

(** ** Clock readings *)

(** The field ranges of a [datetime] (a day is at most 31 whatever the
    month). *)
Definition datetime_in_range (dt : datetime) : Prop :=
  1 <= Z.of_nat (year dt) <= 9999
  /\ (1 <= month dt <= 12 /\ 1 <= day dt <= 31
      /\ hour dt < 24 /\ minute dt < 60 /\ second dt < 60)%nat
  /\ Z.of_nat (microsecond dt) < 1000000.

(** Reading a decimal field back, leading zeros allowed. *)
Definition read_field (s : string) : option nat :=
  option_map Nat.of_uint (NilEmpty.uint_of_string s).

(** A reading with microseconds, in the same second as the demo's. *)
Definition sample_range_clock : datetime := mk_datetime 2025 7 15 8 30 0 999.

(** The reading with the microsecond dropped. *)
Definition to_the_second (dt : datetime) : datetime :=
  mk_datetime (year dt) (month dt) (day dt) (hour dt) (minute dt) (second dt)
              0.

(** The sum of a field over the berth types of a class entry. *)
Definition berth_sum (entry : pyval) (field : string) : option Z :=
  match get_item entry "berth_availability" with
  | Some (PDict berths) =>
      fold_right
        (fun kv acc =>
           match get_item (snd kv) field, acc with
           | Some (PInt n), Some total => Some (n + total)
           | _, _ => None
           end)
        (Some 0) berths
  | _ => None
  end.

(** * Properties *)

Example demo_last_updated :
  match fst (query demo_query demo_world) with
  | Returned snap => get_path snap ["additional_info"; "last_updated"]
  | Raised _ => None
  end = Some (PStr "2025-07-15 08:30:00").
Proof. vm_compute. reflexivity. Qed.

Example unhashable_class_raises :
  fst (check_seat_availability (PStr "T") (PStr "D") (PStr "A") (PStr "B")
         (PList [PStr "AC2"]) demo_world)
  = Raised (TypeError "unhashable type: 'list'").
Proof. vm_compute. reflexivity. Qed.

Example stated_percent_examples :
  map stated_percent ["25% of fare"; "50% of fare"; "No refund"; "of fare";
                      "% of fare"; "7x% of fare"]
  = [Some 25; Some 50; Some 100; None; None; None].
Proof. vm_compute. reflexivity. Qed.

Example demo_reported_percents :
  match fst (query demo_query demo_world) with
  | Returned snap => reported_percents snap
  | Raised _ => []
  end = [Some 25; Some 50; Some 100].
Proof. vm_compute. reflexivity. Qed.

(** ** The shape of a returned snapshot *)

(** A query with string arguments returns and leaves the world as it was. *)
Lemma query_runs (q : Query) (w : World) :
  exists snap, query q w = (Returned snap, w).
Proof.
  destruct q, w. eexists. reflexivity.
Qed.


(** The only way the call can fail is an unhashable travel class, which the
    dictionary display rejects. *)
Lemma check_seat_availability_raises_iff
    (train_name travel_date start_station end_station travel_class : pyval)
    (w : World) :
  (exists e, fst (check_seat_availability train_name travel_date start_station
                    end_station travel_class w) = Raised e)
  <-> hashable travel_class = false.
Proof.
  unfold check_seat_availability, bind, lift, build_map_1, datetime_now, ret.
  destruct (hashable travel_class); cbn [fst]; split.
  - intros [e H]. discriminate H.
  - discriminate.
  - reflexivity.
  - intros _. eexists. reflexivity.
Qed.

(** Strings are hashable, so the tool's schema rules the failure out. *)
Lemma str_hashable (s : string) : hashable (PStr s) = true.
Proof. reflexivity. Qed.

(** Evaluate the dictionary operations, leaving the clock rendering folded. *)
Ltac evaluate := cbv -[strftime_Ymd_HMS Z.lt Z.le].

Ltac run_query q w :=
  destruct q as [tn td ss es tc]; destruct w as [now];
  eexists; split; [reflexivity | ].

(** C2.  For any five string arguments and any clock reading the query
    returns a snapshot and raises nothing; the snapshot is the dictionary
    with the four sections of the response. *)
Theorem check_seat_availability_never_errors (q : Query) (w : World) :
  exists snap,
    fst (query q w) = Returned snap
    /\ dict_keys snap
       = Some [PStr "train_details"; PStr "class_availability";
               PStr "additional_info"; PStr "alternate_options"].
Proof.
  run_query q w. reflexivity.
Qed.

(** C8.  The snapshot echoes the arguments: train name, travel date and the
    two stations sit in [train_details], and [class_availability] has exactly
    one key, the travel class. *)
Theorem snapshot_echoes_arguments (q : Query) (w : World) :
  exists snap,
    fst (query q w) = Returned snap
    /\ get_path snap ["train_details"; "train_name"]
       = Some (PStr (q_train_name q))
    /\ get_path snap ["train_details"; "travel_date"]
       = Some (PStr (q_travel_date q))
    /\ get_path snap ["train_details"; "route"; "start_station"]
       = Some (PStr (q_start_station q))
    /\ get_path snap ["train_details"; "route"; "end_station"]
       = Some (PStr (q_end_station q))
    /\ class_keys snap = Some [PStr (q_travel_class q)].
Proof.
  run_query q w. repeat split.
Qed.

(** C4.  In the returned snapshot every class entry carries the status
    "Available" exactly when its available seat count is positive, and
    "Waiting List" exactly when it is not. *)
Theorem status_flag_follows_available_seats (q : Query) (w : World) :
  exists snap,
    fst (query q w) = Returned snap
    /\ exists entries,
         class_entries snap = Some entries
         /\ entries <> []
         /\ Forall status_matches_count entries.
Proof.
  run_query q w. eexists. split; [reflexivity | ].
  split; [discriminate | ].
  constructor; [ | constructor].
  exists "Available", 18. repeat split; try reflexivity; try lia.
  all: discriminate.
Qed.

(** C5.  In the returned snapshot every class entry, and each of its berth
    types upper, middle and lower, has [0 <= available <= total], hence a
    booked count [total - available] between 0 and the total. *)
Theorem snapshot_inventory_in_range (q : Query) (w : World) :
  exists snap,
    fst (query q w) = Returned snap
    /\ exists entries,
         class_entries snap = Some entries
         /\ entries <> []
         /\ Forall inventory_in_range entries.
Proof.
  run_query q w. eexists. split; [reflexivity | ].
  split; [discriminate | ].
  constructor; [ | constructor].
  split.
  - exists 18, 72. repeat split; try reflexivity; lia.
  - eexists. split; [reflexivity | ]. split; [reflexivity | ].
    repeat constructor.
    + exists 6, 24. repeat split; try reflexivity; lia.
    + exists 4, 24. repeat split; try reflexivity; lia.
    + exists 8, 24. repeat split; try reflexivity; lia.
Qed.

(** C10.  [alternate_options] is a list of exactly two entries; each names
    the queried travel class and a positive number of available seats, 32
    for the first and 45 for the second. *)
Theorem alternate_options_two_offers (q : Query) (w : World) :
  exists snap,
    fst (query q w) = Returned snap
    /\ exists first second,
         get_item snap "alternate_options" = Some (PList [first; second])
         /\ Forall (alternate_offers (q_travel_class q)) [first; second]
         /\ get_item first "available_seats" = Some (PInt 32)
         /\ get_item second "available_seats" = Some (PInt 45).
Proof.
  run_query q w. do 2 eexists. split; [reflexivity | ].
  split; [ | split; reflexivity].
  repeat constructor.
  - exists 32. split; [reflexivity | lia].
  - exists 45. split; [reflexivity | lia].
Qed.

(** ** Determinism and the clock *)

(** C3, as stated, fails: the demo query asked at 08:30:00 and again at
    08:30:01 gives two different answers. *)
Lemma same_query_different_answers :
  fst (query demo_query demo_world) <> fst (query demo_query later_world).
Proof.
  intro H. apply (f_equal stamp_of) in H. vm_compute in H. discriminate H.
Qed.

(** C3, amended.  A query changes no state, and two calls with the same
    arguments return the same snapshot except for [last_updated], which is
    the clock reading of each call rendered to the second. *)
Theorem query_read_only_and_equal_up_to_stamp (q : Query) (w1 w2 : World) :
  exists snap1 snap2,
    query q w1 = (Returned snap1, w1)
    /\ query q w2 = (Returned snap2, w2)
    /\ get_path snap1 ["additional_info"; "last_updated"]
       = Some (PStr (strftime_Ymd_HMS (wall_clock w1)))
    /\ snap2 = set_last_updated (strftime_Ymd_HMS (wall_clock w2)) snap1.
Proof.
  destruct q as [tn td ss es tc], w1 as [now1], w2 as [now2].
  do 2 eexists. repeat split.
Qed.

(** Two calls whose clock readings render alike give the same answer. *)
Lemma same_second_same_answer (q : Query) (w1 w2 : World) :
  strftime_Ymd_HMS (wall_clock w1) = strftime_Ymd_HMS (wall_clock w2) ->
  fst (query q w1) = fst (query q w2).
Proof.
  destruct q as [tn td ss es tc], w1 as [now1], w2 as [now2].
  cbn [wall_clock]. intros Hsame. evaluate. rewrite Hsame. reflexivity.
Qed.

(** ** What depends on the arguments *)

(** C9, as stated, fails: two queries that differ only in the travel class
    differ in [alternate_options] too, a field the claim lists as constant,
    so blanking the echoed fields it names and the stamp does not make the
    answers equal. *)
Lemma alternate_options_depend_on_class :
  exists snap1 snap2,
    fst (query demo_query demo_world) = Returned snap1
    /\ fst (query (mk_Query "Rajdhani Express" "2025-07-15" "New Delhi (NDLS)"
                            "Mumbai Central (BCT)" "AC3") demo_world)
       = Returned snap2
    /\ get_item snap1 "alternate_options" <> get_item snap2 "alternate_options"
    /\ erase_echo_and_stamp snap1 <> erase_echo_and_stamp snap2.
Proof.
  do 2 eexists. split; [reflexivity | ]. split; [reflexivity | ].
  split.
  - intro H. vm_compute in H. discriminate H.
  - intro H.
    apply (f_equal (fun s => get_item s "alternate_options")) in H.
    vm_compute in H. discriminate H.
Qed.

(** C9, amended.  Any two calls return snapshots that agree once the echoed
    arguments (train name, travel date, stations, the class key and the
    ["class"] field of each alternate option) and the [last_updated] stamp
    are blanked; the seat counts, prices, train number, timings, quota flags
    and cancellation charges are the fixed sample values. *)
Theorem snapshots_agree_outside_echo_and_stamp (q1 q2 : Query) (w1 w2 : World) :
  exists snap1 snap2 entry,
    fst (query q1 w1) = Returned snap1
    /\ fst (query q2 w2) = Returned snap2
    /\ erase_alternate_class (erase_echo_and_stamp snap1)
       = erase_alternate_class (erase_echo_and_stamp snap2)
    /\ class_entries snap1 = Some [entry]
    /\ holds_all entry sample_class_figures
    /\ holds_all snap1 sample_fixed_fields.
Proof.
  destruct q1 as [tn1 td1 ss1 es1 tc1], q2 as [tn2 td2 ss2 es2 tc2].
  destruct w1 as [now1], w2 as [now2].
  do 3 eexists. split; [reflexivity | ]. split; [reflexivity | ].
  split; [evaluate; reflexivity | ]. split; [reflexivity | ].
  split; evaluate; repeat (apply Forall_cons; [reflexivity | ]);
    apply Forall_nil.
Qed.

(** ** The reported cancellation charges *)

(** C1, as stated, fails: two hours before departure the schedule retains
    75% of the fare while the response reports 25%; twelve hours before it
    the schedule refunds in full while the response reports no refund; and
    no entry of the reported table states 75%. *)
Lemma reported_charges_differ_from_schedule :
  exists snap,
    fst (query demo_query demo_world) = Returned snap
    /\ ~ states_spec_schedule snap
    /\ spec_retained_percent (tier_of_hours 2) = 75
    /\ reported_retained_percent snap (tier_of_hours 2) = Some 25
    /\ spec_retained_percent (tier_of_hours 12) = 0
    /\ reported_retained_percent snap (tier_of_hours 12) = Some 100
    /\ ~ In (Some 75) (reported_percents snap).
Proof.
  eexists. split; [reflexivity | ].
  split.
  { intro H. specialize (H Under4h). vm_compute in H. discriminate H. }
  do 4 (split; [vm_compute; reflexivity | ]).
  vm_compute. intros [H | [H | [H | []]]]; discriminate H.
Qed.

(** C1, amended.  Every response reports the same table: up to 4 hours 25%
    of the fare, 4 to 12 hours 50% of the fare, after 12 hours no refund.  It
    agrees with the schedule (full refund at 12 hours or more, 50% retained
    between 4 and 12 hours, 75% retained under 4 hours) at the 4-to-12-hour
    band and at no other. *)
Theorem reported_cancellation_charges (q : Query) (w : World) :
  exists snap,
    fst (query q w) = Returned snap
    /\ get_path snap ["additional_info"; "cancellation_charges"]
       = Some (PDict [ "upto_4_hours" :-> PStr "25% of fare";
                       "4_to_12_hours" :-> PStr "50% of fare";
                       "after_12_hours" :-> PStr "No refund" ])
    /\ reported_retained_percent snap Under4h = Some 25
    /\ reported_retained_percent snap From4hTo12h = Some 50
    /\ reported_retained_percent snap AtLeast12h = Some 100
    /\ forall t,
         reported_retained_percent snap t = Some (spec_retained_percent t)
         <-> t = From4hTo12h.
Proof.
  run_query q w. evaluate.
  do 4 (split; [reflexivity | ]).
  intros t. split.
  - destruct t; intro H; try reflexivity; discriminate H.
  - intros ->. reflexivity.
Qed.

(** * The tool handlers *)

(** ** The encoder's strings *)

Lemma count_char_app (c : ascii) (a b : string) :
  count_char c (a ++ b) = (count_char c a + count_char c b)%nat.
Proof.
  induction a as [ | c' a IH]; [reflexivity | ].
  cbn [append count_char]. rewrite IH. lia.
Qed.

Lemma length_app (a b : string) :
  String.length (a ++ b) = (String.length a + String.length b)%nat.
Proof.
  induction a as [ | c a IH]; [reflexivity | ].
  cbn [append String.length]. rewrite IH. reflexivity.
Qed.

Ltac each_byte c :=
  destruct c as [[] [] [] [] [] [] [] []].

Lemma escape_char_no_newline (c : ascii) :
  count_char newline (escape_char c) = 0%nat.
Proof. each_byte c; reflexivity. Qed.

Lemma escape_no_newline (s : string) : count_char newline (escape s) = 0%nat.
Proof.
  induction s as [ | c s IH]; [reflexivity | ].
  cbn [escape]. rewrite count_char_app, escape_char_no_newline, IH.
  reflexivity.
Qed.

Lemma scan_app (st : scan_state) (a b : string) :
  scan st (a ++ b)
  = match scan st a with
    | Some st' => scan st' b
    | None => None
    end.
Proof.
  revert st. induction a as [ | c a IH]; intros st; [reflexivity | ].
  cbn [append scan]. destruct (scan_step st c); [apply IH | reflexivity].
Qed.

Lemma scan_escape_char (c : ascii) : scan Plain (escape_char c) = Some Plain.
Proof. each_byte c; reflexivity. Qed.

(** X1.  Between the quotes the encoder writes the body of a JSON string
    literal, whatever the text: no bare quote or control character is left,
    and every backslash starts a well-formed escape. *)
Theorem escape_is_json_string_body (s : string) : json_string_body (escape s).
Proof.
  unfold json_string_body.
  induction s as [ | c s IH]; [reflexivity | ].
  cbn [escape]. rewrite scan_app, scan_escape_char. exact IH.
Qed.

Lemma escape_char_plain (c : ascii) :
  needs_escape c = false -> escape_char c = String c EmptyString.
Proof. each_byte c; intros H; try reflexivity; discriminate H. Qed.

Lemma escape_char_grows (c : ascii) :
  needs_escape c = true -> (2 <= String.length (escape_char c))%nat.
Proof.
  each_byte c; intros H; try discriminate H; apply Nat.leb_le; reflexivity.
Qed.

Lemma escape_length (s : string) :
  (String.length s <= String.length (escape s))%nat.
Proof.
  induction s as [ | c s IH]; [reflexivity | ].
  cbn [escape String.length]. rewrite length_app.
  destruct (needs_escape c) eqn:E.
  - pose proof (escape_char_grows c E). lia.
  - rewrite (escape_char_plain c E). cbn. lia.
Qed.

(** X2.  With [ensure_ascii=False] a text comes out exactly as it went in
    if and only if it has no control character, quote or backslash: bytes
    from 0x80 up, so every non-ASCII character, are never rewritten. *)
Theorem escape_fixes_exactly_plain_text (s : string) :
  escape s = s <-> plain_text s = true.
Proof.
  induction s as [ | c s IH]; [split; reflexivity | ].
  cbn [escape plain_text]. destruct (needs_escape c) eqn:E; cbn [negb andb].
  - split; [ | discriminate]. intros H. exfalso.
    apply (f_equal String.length) in H.
    rewrite length_app in H. cbn [String.length] in H.
    pose proof (escape_char_grows c E). pose proof (escape_length s). lia.
  - rewrite (escape_char_plain c E). cbn [append]. rewrite <- IH. split.
    + intros H. injection H as H. exact H.
    + intros ->. reflexivity.
Qed.

Example devanagari_station_is_plain :
  escape "नई दिल्ली → मुंबई" = "नई दिल्ली → मुंबई".
Proof. apply escape_fixes_exactly_plain_text. vm_compute. reflexivity. Qed.

(** ** Dispatch and argument lookup *)

Lemma listed_tool (tool : Tool) :
  In tool handle_list_tools ->
  name tool = "check_seat_availability"
  /\ required_keys (inputSchema tool) = looked_up.
Proof.
  intros [<- | []]. split; reflexivity.
Qed.

Lemma first_missing_none (arguments : list (pyval * pyval)) :
  first_missing looked_up arguments = None ->
  exists v1 v2 v3 v4 v5,
    assoc_str "train_name" arguments = Some v1
    /\ assoc_str "travel_date" arguments = Some v2
    /\ assoc_str "start_station" arguments = Some v3
    /\ assoc_str "end_station" arguments = Some v4
    /\ assoc_str "travel_class" arguments = Some v5.
Proof.
  unfold looked_up. cbn [first_missing].
  destruct (assoc_str "train_name" arguments) as [v1 | ]; [ | discriminate].
  destruct (assoc_str "travel_date" arguments) as [v2 | ]; [ | discriminate].
  destruct (assoc_str "start_station" arguments) as [v3 | ]; [ | discriminate].
  destruct (assoc_str "end_station" arguments) as [v4 | ]; [ | discriminate].
  destruct (assoc_str "travel_class" arguments) as [v5 | ]; [ | discriminate].
  intros _. exists v1, v2, v3, v4, v5. repeat split.
Qed.

Section HandlerProperties.

Variable floatstr : Q -> string.


Lemma dispatch_missing (arguments : list (pyval * pyval)) (w : World)
    (k : string) :
  first_missing looked_up arguments = Some k ->
  handle_call_tool floatstr "check_seat_availability" arguments w
  = (Failed (KeyError k), w).
Proof.
  unfold looked_up, handle_call_tool, subscript, tool_bind, tool_raise, tool_ret.
  cbn [first_missing String.eqb Ascii.eqb Bool.eqb].
  destruct (assoc_str "train_name" arguments);
    [ | intros [= <-]; reflexivity].
  destruct (assoc_str "travel_date" arguments);
    [ | intros [= <-]; reflexivity].
  destruct (assoc_str "start_station" arguments);
    [ | intros [= <-]; reflexivity].
  destruct (assoc_str "end_station" arguments);
    [ | intros [= <-]; reflexivity].
  destruct (assoc_str "travel_class" arguments);
    [ | intros [= <-]; reflexivity].
  discriminate.
Qed.

Lemma dispatch_found (arguments : list (pyval * pyval)) (w : World)
    (v1 v2 v3 v4 v5 : pyval) :
  assoc_str "train_name" arguments = Some v1 ->
  assoc_str "travel_date" arguments = Some v2 ->
  assoc_str "start_station" arguments = Some v3 ->
  assoc_str "end_station" arguments = Some v4 ->
  assoc_str "travel_class" arguments = Some v5 ->
  handle_call_tool floatstr "check_seat_availability" arguments w
  = match check_seat_availability v1 v2 v3 v4 v5 w with
    | (Returned result, w') =>
        match json_dumps floatstr result with
        | Returned dumped => (Done [mk_TextContent "text" dumped], w')
        | Raised e => (Failed (Uncaught e), w')
        end
    | (Raised e, w') => (Failed (Uncaught e), w')
    end.
Proof.
  intros H1 H2 H3 H4 H5.
  unfold handle_call_tool, subscript, tool_bind, tool_ret, of_result, await,
    lift.
  cbn [String.eqb Ascii.eqb Bool.eqb]. rewrite H1, H2, H3, H4, H5.
  destruct (check_seat_availability v1 v2 v3 v4 v5 w) as [[result | e] w'];
    [ | reflexivity].
  destruct (json_dumps floatstr result); reflexivity.
Qed.


(** Evaluate the handler and the encoder on a snapshot, leaving the texts
    that depend on the arguments folded. *)
Ltac render :=
  cbv -[escape append strftime_Ymd_HMS count_char newline].

Lemma answered_on_strings (arguments : list (pyval * pyval)) (w : World)
    (q : Query) :
  assoc_str "train_name" arguments = Some (PStr (q_train_name q)) ->
  assoc_str "travel_date" arguments = Some (PStr (q_travel_date q)) ->
  assoc_str "start_station" arguments = Some (PStr (q_start_station q)) ->
  assoc_str "end_station" arguments = Some (PStr (q_end_station q)) ->
  assoc_str "travel_class" arguments = Some (PStr (q_travel_class q)) ->
  exists snap dumped,
    query q w = (Returned snap, w)
    /\ json_dumps floatstr snap = Returned dumped
    /\ handle_call_tool floatstr "check_seat_availability" arguments w
       = (Done [mk_TextContent "text" dumped], w).
Proof.
  intros H1 H2 H3 H4 H5.
  rewrite (dispatch_found _ _ _ _ _ _ _ H1 H2 H3 H4 H5).
  destruct q as [tn td ss es tc], w as [now].
  do 2 eexists. split; [reflexivity | ].
  split; render; reflexivity.
Qed.



(** X5.  For a listed tool the handler raises [KeyError(k)] exactly when [k]
    is the first key of the schema's [required] list that the arguments
    lack. *)
Theorem KeyError_iff_first_required_key_missing (tool : Tool)
    (arguments : list (pyval * pyval)) (w : World) (k : string) :
  In tool handle_list_tools ->
  (fst (handle_call_tool floatstr (name tool) arguments w)
   = Failed (KeyError k)
   <-> first_missing (required_keys (inputSchema tool)) arguments = Some k).
Proof.
  intros Htool. destruct (listed_tool tool Htool) as [-> ->].
  destruct (first_missing looked_up arguments) as [k' | ] eqn:M.
  - rewrite (dispatch_missing _ _ _ M). cbn [fst]. split; congruence.
  - split; [ | discriminate]. intros H. exfalso.
    destruct (first_missing_none _ M)
      as (v1 & v2 & v3 & v4 & v5 & H1 & H2 & H3 & H4 & H5).
    rewrite (dispatch_found _ _ _ _ _ _ _ H1 H2 H3 H4 H5) in H.
    destruct (check_seat_availability v1 v2 v3 v4 v5 w) as [[result | e] w'];
      [ | discriminate H].
    destruct (json_dumps floatstr result); discriminate H.
Qed.

(** X6.  When all five keys are present but the travel class is a list or a
    dictionary, the [TypeError] of the dictionary display,
    ["unhashable type: '<type>'"], escapes the handler uncaught. *)
Theorem unhashable_class_raises_TypeError
    (arguments : list (pyval * pyval)) (w : World)
    (v1 v2 v3 v4 travel_class : pyval) :
  assoc_str "train_name" arguments = Some v1 ->
  assoc_str "travel_date" arguments = Some v2 ->
  assoc_str "start_station" arguments = Some v3 ->
  assoc_str "end_station" arguments = Some v4 ->
  assoc_str "travel_class" arguments = Some travel_class ->
  hashable travel_class = false ->
  handle_call_tool floatstr "check_seat_availability" arguments w
  = (Failed (Uncaught (TypeError ("unhashable type: '"
                                  ++ type_name travel_class ++ "'"))), w).
Proof.
  intros H1 H2 H3 H4 H5 Hhash.
  rewrite (dispatch_found _ _ _ _ _ _ _ H1 H2 H3 H4 H5).
  unfold check_seat_availability, bind, lift, build_map_1.
  rewrite Hhash. reflexivity.
Qed.

(** X7.  The handler reads the five required entries and nothing else: two
    argument dictionaries that agree on them get the same outcome, whatever
    other entries they carry. *)
Theorem only_required_entries_matter (name : string)
    (arguments1 arguments2 : list (pyval * pyval)) (w : World) :
  map (fun k => assoc_str k arguments1) looked_up
  = map (fun k => assoc_str k arguments2) looked_up ->
  handle_call_tool floatstr name arguments1 w
  = handle_call_tool floatstr name arguments2 w.
Proof.
  unfold looked_up. cbn [map]. intros [= H1 H2 H3 H4 H5].
  unfold handle_call_tool, subscript.
  rewrite H1, H2, H3, H4, H5. reflexivity.
Qed.

(** X8.  Five string arguments, whatever they are, are answered with exactly
    one text content of type ["text"]: the JSON rendering of the snapshot
    that [check_seat_availability] builds for them.  The handler itself
    checks neither the class against the schema's enumeration nor the date
    format. *)
Theorem string_arguments_are_answered (q : Query) (w : World) :
  exists snap dumped,
    query q w = (Returned snap, w)
    /\ json_dumps floatstr snap = Returned dumped
    /\ handle_call_tool floatstr "check_seat_availability" (arguments_of q) w
       = (Done [mk_TextContent "text" dumped], w).
Proof.
  apply answered_on_strings; reflexivity.
Qed.

(** ** Requests that conform to the schema *)

Lemma assoc_str_In (k : string) (arguments : list (pyval * pyval))
    (v : pyval) :
  assoc_str k arguments = Some v -> In (PStr k, v) arguments.
Proof.
  induction arguments as [ | [key value] rest IH]; [discriminate | ].
  cbn [assoc_str].
  destruct key; try (intros H; right; exact (IH H)).
  destruct (String.eqb k s) eqn:E.
  - apply String.eqb_eq in E. subst s. intros [= <-]. left. reflexivity.
  - intros H. right. exact (IH H).
Qed.

Lemma property_ok_string (prop v : pyval) :
  get_item prop "type" = Some (PStr "string") ->
  property_ok prop v = true ->
  exists s,
    v = PStr s
    /\ forall allowed,
         get_item prop "enum" = Some allowed -> In s (strings_of allowed).
Proof.
  unfold property_ok. intros ->. cbn [String.eqb Ascii.eqb Bool.eqb].
  destruct v as [ | | | | s | | ]; try discriminate.
  cbn [andb]. intros H. exists s. split; [reflexivity | ].
  intros allowed Hallowed. rewrite Hallowed in H.
  apply existsb_exists in H. destruct H as (x & Hin & Heq).
  apply String.eqb_eq in Heq. subst x. exact Hin.
Qed.

(** X9.  A request that conforms to the schema the tool advertises (every
    required key present, every declared entry a string, the class one of
    the enumerated values) is always answered: one text content holding the
    JSON rendering of the snapshot for its five strings, no exception, no
    state change. *)
Theorem conforming_request_is_answered (tool : Tool)
    (arguments : list (pyval * pyval)) (w : World) :
  In tool handle_list_tools ->
  conforms (inputSchema tool) arguments = true ->
  exists q snap dumped,
    map (fun k => assoc_str k arguments) looked_up
    = [Some (PStr (q_train_name q)); Some (PStr (q_travel_date q));
       Some (PStr (q_start_station q)); Some (PStr (q_end_station q));
       Some (PStr (q_travel_class q))]
    /\ In (q_travel_class q) ["AC1"; "AC2"; "AC3"; "Sleeper"; "CC"; "EC"; "2S"]
    /\ query q w = (Returned snap, w)
    /\ json_dumps floatstr snap = Returned dumped
    /\ handle_call_tool floatstr (name tool) arguments w
       = (Done [mk_TextContent "text" dumped], w).
Proof.
  intros Htool Hconf. destruct (listed_tool tool Htool) as [Hname Hreq].
  rewrite Hname. unfold conforms in Hconf. rewrite Hreq in Hconf.
  apply andb_prop in Hconf. destruct Hconf as [Hpresent Hvalues].
  destruct (first_missing looked_up arguments) eqn:M; [discriminate | ].
  destruct (first_missing_none _ M)
    as (v1 & v2 & v3 & v4 & v5 & H1 & H2 & H3 & H4 & H5).
  rewrite forallb_forall in Hvalues.
  destruct Htool as [<- | []].
  pose proof (Hvalues _ (assoc_str_In _ _ _ H1)) as P1.
  pose proof (Hvalues _ (assoc_str_In _ _ _ H2)) as P2.
  pose proof (Hvalues _ (assoc_str_In _ _ _ H3)) as P3.
  pose proof (Hvalues _ (assoc_str_In _ _ _ H4)) as P4.
  pose proof (Hvalues _ (assoc_str_In _ _ _ H5)) as P5.
  cbn in P1, P2, P3, P4, P5.
  apply property_ok_string in P1; [ | reflexivity].
  apply property_ok_string in P2; [ | reflexivity].
  apply property_ok_string in P3; [ | reflexivity].
  apply property_ok_string in P4; [ | reflexivity].
  apply property_ok_string in P5; [ | reflexivity].
  destruct P1 as (tn & -> & _), P2 as (td & -> & _), P3 as (ss & -> & _),
    P4 as (es & -> & _), P5 as (tc & -> & Henum).
  destruct (answered_on_strings arguments w (mk_Query tn td ss es tc)
              H1 H2 H3 H4 H5) as (snap & dumped & Hq & Hd & Hh).
  exists (mk_Query tn td ss es tc), snap, dumped.
  split; [unfold looked_up; cbn [map]; rewrite H1, H2, H3, H4, H5;
          reflexivity | ].
  split; [ | repeat split; assumption].
  exact (Henum _ eq_refl).
Qed.

(** ** The layout of the response text *)

Lemma encode_basestring_no_newline (s : string) :
  count_char newline (encode_basestring s) = 0%nat.
Proof.
  unfold encode_basestring. cbn [count_char].
  rewrite count_char_app, escape_no_newline. reflexivity.
Qed.

(** X10.  No argument can change the layout of the response: whatever the
    five strings contain (line breaks and quotes included) and whatever the
    clock reads, the text has the same 67 line breaks, so 68 lines. *)
Theorem response_layout_is_fixed (q : Query) (w : World) :
  repr_integral_floats floatstr ->
  exists dumped,
    handle_call_tool floatstr "check_seat_availability" (arguments_of q) w
    = (Done [mk_TextContent "text" dumped], w)
    /\ count_char newline dumped = 67%nat.
Proof.
  intros R.
  assert (F1 : floatstr 1250 = "1250.0") by (apply (R 1250); reflexivity).
  assert (F2 : floatstr 1275 = "1275.0") by (apply (R 1275); reflexivity).
  assert (F3 : floatstr 1300 = "1300.0") by (apply (R 1300); reflexivity).
  assert (F4 : floatstr 1200 = "1200.0") by (apply (R 1200); reflexivity).
  destruct q as [tn td ss es tc], w as [now]. eexists. split.
  - cbv -[escape append strftime_Ymd_HMS encode_basestring].
    reflexivity.
  - rewrite !count_char_app, !encode_basestring_no_newline.
    rewrite F1, F2, F3, F4. reflexivity.
Qed.

(** ** The standalone demo *)


End HandlerProperties.

(** * The timestamp *)

Lemma read_field_zeros (k : nat) (s : string) :
  read_field (zeros k ++ s) = read_field s.
Proof.
  unfold read_field. induction k as [ | k IH]; [reflexivity | ].
  cbn [zeros append NilEmpty.uint_of_string].
  destruct (NilEmpty.uint_of_string (zeros k ++ s)) as [u | ];
    destruct (NilEmpty.uint_of_string s) as [u' | ];
    cbn in IH |- *; try discriminate IH; try reflexivity.
  injection IH as IH. f_equal. exact IH.
Qed.

Lemma read_field_string_of_nat (n : nat) :
  read_field (string_of_nat n) = Some n.
Proof.
  unfold read_field, string_of_nat, NilZero.string_of_uint.
  pose proof (DecimalNat.Unsigned.of_to n) as Hn.
  destruct (Nat.to_uint n) eqn:E;
    try (rewrite <- E, NilEmpty.usu; cbn [option_map]; rewrite E, Hn;
         reflexivity).
  cbn in Hn |- *. rewrite <- Hn. reflexivity.
Qed.

Lemma read_field_zfill (width n : nat) : read_field (zfill width n) = Some n.
Proof.
  unfold zfill. rewrite read_field_zeros. apply read_field_string_of_nat.
Qed.

Lemma zfill_inj (width n m : nat) : zfill width n = zfill width m -> n = m.
Proof.
  intros H. apply (f_equal read_field) in H.
  rewrite !read_field_zfill in H. injection H as H. exact H.
Qed.

Lemma zfill_2_length (n : nat) :
  (n < 100)%nat -> String.length (zfill 2 n) = 2%nat.
Proof.
  intros H.
  assert (A : forallb (fun n => (String.length (zfill 2 n) =? 2)%nat)
                (seq 0 100) = true) by (vm_compute; reflexivity).
  rewrite forallb_forall in A. apply Nat.eqb_eq. apply A. apply in_seq. lia.
Qed.

Lemma zfill_4_length (n : nat) :
  Z.of_nat n <= 9999 -> String.length (zfill 4 n) = 4%nat.
Proof.
  intros H.
  assert (A : forallb (fun n => (String.length (zfill 4 n) =? 4)%nat)
                (seq 0 (Z.to_nat 10000)) = true) by (vm_compute; reflexivity).
  rewrite forallb_forall in A. apply Nat.eqb_eq. apply A. apply in_seq. lia.
Qed.

Lemma app_inv_length (a a' b b' : string) :
  String.length a = String.length a' ->
  a ++ b = a' ++ b' -> a = a' /\ b = b'.
Proof.
  revert a'. induction a as [ | c a IH]; intros [ | c' a'] Hlen H;
    try discriminate Hlen.
  - split; [reflexivity | exact H].
  - cbn [append] in H. injection H as -> H. injection Hlen as Hlen.
    destruct (IH a' Hlen H) as [-> ->]. split; reflexivity.
Qed.

Lemma strftime_to_the_second (dt : datetime) :
  strftime_Ymd_HMS (to_the_second dt) = strftime_Ymd_HMS dt.
Proof. reflexivity. Qed.

Lemma strftime_inj (dt1 dt2 : datetime) :
  datetime_in_range dt1 -> datetime_in_range dt2 ->
  strftime_Ymd_HMS dt1 = strftime_Ymd_HMS dt2 ->
  to_the_second dt1 = to_the_second dt2.
Proof.
  destruct dt1 as [Y1 M1 D1 h1 m1 s1 u1], dt2 as [Y2 M2 D2 h2 m2 s2 u2].
  unfold datetime_in_range, strftime_Ymd_HMS, to_the_second.
  cbn [year month day hour minute second microsecond].
  intros (HY1 & (HM1 & HD1 & Hh1 & Hm1 & Hs1) & _)
         (HY2 & (HM2 & HD2 & Hh2 & Hm2 & Hs2) & _) H.
  apply app_inv_length in H;
    [ | rewrite !zfill_4_length by lia; reflexivity].
  destruct H as [EY H]. cbn [append] in H. injection H as H.
  apply app_inv_length in H;
    [ | rewrite !zfill_2_length by lia; reflexivity].
  destruct H as [EM H]. cbn [append] in H. injection H as H.
  apply app_inv_length in H;
    [ | rewrite !zfill_2_length by lia; reflexivity].
  destruct H as [ED H]. cbn [append] in H. injection H as H.
  apply app_inv_length in H;
    [ | rewrite !zfill_2_length by lia; reflexivity].
  destruct H as [Eh H]. cbn [append] in H. injection H as H.
  apply app_inv_length in H;
    [ | rewrite !zfill_2_length by lia; reflexivity].
  destruct H as [Em H]. cbn [append] in H. injection H as Es.
  apply zfill_inj in EY, EM, ED, Eh, Em, Es. subst. reflexivity.
Qed.


(** X13.  Two answers to the same query are equal exactly when the two
    clock readings agree to the second: the stamp tells any two seconds
    apart and hides the microseconds. *)
Theorem answers_equal_iff_same_second (q : Query) (w1 w2 : World) :
  datetime_in_range (wall_clock w1) ->
  datetime_in_range (wall_clock w2) ->
  (fst (query q w1) = fst (query q w2)
   <-> to_the_second (wall_clock w1) = to_the_second (wall_clock w2)).
Proof.
  intros R1 R2. split.
  - intros H. apply strftime_inj; [exact R1 | exact R2 | ].
    apply (f_equal stamp_of) in H.
    destruct q as [tn td ss es tc], w1 as [now1], w2 as [now2].
    cbv -[strftime_Ymd_HMS] in H. injection H as H. exact H.
  - intros H. apply same_second_same_answer.
    rewrite <- (strftime_to_the_second (wall_clock w1)), H.
    apply strftime_to_the_second.
Qed.

(** * The sample inventory *)

(** X14.  In every snapshot the berth types account for the whole class:
    their totals add up to [total_seats] and their available counts to
    [available_seats]. *)
Theorem berths_add_up_to_class (q : Query) (w : World) :
  exists snap entry total available,
    fst (query q w) = Returned snap
    /\ class_entries snap = Some [entry]
    /\ get_item entry "total_seats" = Some (PInt total)
    /\ berth_sum entry "total" = Some total
    /\ get_item entry "available_seats" = Some (PInt available)
    /\ berth_sum entry "available" = Some available.
Proof.
  destruct q as [tn td ss es tc], w as [now].
  do 4 eexists. split; [reflexivity | ]. split; [reflexivity | ].
  repeat split.
Qed.

(** * Instances *)

(** The renderer used to run the handlers is right on integer-valued
    floats. *)
Lemma sample_floatstr_integral : repr_integral_floats sample_floatstr.
Proof. intros z _. reflexivity. Qed.

Lemma KeyError_iff_first_required_key_missing_witness :
  In advertised_tool handle_list_tools
  /\ (fst (handle_call_tool sample_floatstr (name advertised_tool)
             [ "train_name" :-> PStr "Rajdhani Express";
               "end_station" :-> PStr "BCT" ] demo_world)
      = Failed (KeyError "travel_date")
      <-> first_missing (required_keys (inputSchema advertised_tool))
            [ "train_name" :-> PStr "Rajdhani Express";
              "end_station" :-> PStr "BCT" ]
          = Some "travel_date").
Proof.
  split; [left; reflexivity | ].
  apply (KeyError_iff_first_required_key_missing sample_floatstr
           advertised_tool). left. reflexivity.
Defined.

Lemma unhashable_class_raises_TypeError_witness :
  handle_call_tool sample_floatstr "check_seat_availability"
    [ "train_name" :-> PStr "Rajdhani Express";
      "travel_date" :-> PStr "2025-07-15";
      "start_station" :-> PStr "NDLS";
      "end_station" :-> PStr "BCT";
      "travel_class" :-> PList [PStr "AC2"; PStr "AC3"] ] demo_world
  = (Failed (Uncaught (TypeError "unhashable type: 'list'")), demo_world).
Proof.
  apply (unhashable_class_raises_TypeError sample_floatstr _ demo_world
           (PStr "Rajdhani Express") (PStr "2025-07-15") (PStr "NDLS")
           (PStr "BCT") (PList [PStr "AC2"; PStr "AC3"])); reflexivity.
Defined.

Lemma only_required_entries_matter_witness :
  handle_call_tool sample_floatstr "check_seat_availability"
    (arguments_of demo_query) demo_world
  = handle_call_tool sample_floatstr "check_seat_availability"
      (("quota" :-> PStr "TATKAL") :: arguments_of demo_query
       ++ ["berth_preference" :-> PStr "lower"])%list demo_world.
Proof.
  apply (only_required_entries_matter sample_floatstr). reflexivity.
Defined.

Lemma conforming_request_is_answered_witness :
  In advertised_tool handle_list_tools
  /\ conforms (inputSchema advertised_tool) (arguments_of demo_query) = true
  /\ exists q snap dumped,
       map (fun k => assoc_str k (arguments_of demo_query)) looked_up
       = [Some (PStr (q_train_name q)); Some (PStr (q_travel_date q));
          Some (PStr (q_start_station q)); Some (PStr (q_end_station q));
          Some (PStr (q_travel_class q))]
       /\ In (q_travel_class q)
             ["AC1"; "AC2"; "AC3"; "Sleeper"; "CC"; "EC"; "2S"]
       /\ query q demo_world = (Returned snap, demo_world)
       /\ json_dumps sample_floatstr snap = Returned dumped
       /\ handle_call_tool sample_floatstr (name advertised_tool)
            (arguments_of demo_query) demo_world
          = (Done [mk_TextContent "text" dumped], demo_world).
Proof.
  split; [left; reflexivity | ]. split; [reflexivity | ].
  apply (conforming_request_is_answered sample_floatstr advertised_tool
           (arguments_of demo_query) demo_world);
    [left; reflexivity | reflexivity].
Defined.

Lemma response_layout_is_fixed_witness :
  exists dumped,
    handle_call_tool sample_floatstr "check_seat_availability"
      (arguments_of (mk_Query (String newline "Rajdhani") "2025-07-15"
                              "NDLS" "BCT" "AC2")) demo_world
    = (Done [mk_TextContent "text" dumped], demo_world)
    /\ count_char newline dumped = 67%nat.
Proof.
  apply (response_layout_is_fixed sample_floatstr).
  intros z _. reflexivity.
Defined.


Lemma answers_equal_iff_same_second_witness :
  datetime_in_range (wall_clock demo_world)
  /\ datetime_in_range (wall_clock (mk_World sample_range_clock))
  /\ (fst (query demo_query demo_world)
      = fst (query demo_query (mk_World sample_range_clock))
      <-> to_the_second (wall_clock demo_world)
          = to_the_second (wall_clock (mk_World sample_range_clock))).
Proof.
  assert (R1 : datetime_in_range (wall_clock demo_world))
    by (unfold datetime_in_range; cbn; lia).
  assert (R2 : datetime_in_range (wall_clock (mk_World sample_range_clock)))
    by (unfold datetime_in_range; cbn; lia).
  split; [exact R1 | ]. split; [exact R2 | ].
  apply (answers_equal_iff_same_second demo_query demo_world
           (mk_World sample_range_clock) R1 R2).
Defined.
